(** * Buildbot reporters: message formatting ([buildbot/reporters/message.py])

    A shallow embedding of the message formatter of the buildbot master:
    the status-text helpers, the project and source-stamp texts, the
    template store (inline or file templates, rendered by jinja2) and the
    two formatter classes with their rendering contexts. *)

From Stdlib Require Import String Ascii.
From stdpp Require Import base gmap strings list pretty.

Open Scope string_scope.

(* ------------------------------------------------------------------ *)
(** ** Python values that the module inspects *)

(** Python truthiness of an optional string: [None] and [""] are false. *)
Definition truthy (s : option string) : bool :=
  match s with
  | Some t => negb (String.eqb t "")
  | None => false
  end.

(** ["x" in mode] for a mode given as a tuple of tags. *)
Definition mode_has (tag : string) (mode : list string) : bool :=
  existsb (String.eqb tag) mode.

(* ------------------------------------------------------------------ *)
(** ** Result codes ([buildbot.process.results]) *)

Definition SUCCESS : Z := 0.
Definition WARNINGS : Z := 1.
Definition FAILURE : Z := 2.
Definition SKIPPED : Z := 3.
Definition EXCEPTION : Z := 4.
Definition RETRY : Z := 5.
Definition CANCELLED : Z := 6.

Definition Results : list string :=
  ["success"; "warnings"; "failure"; "skipped"; "exception"; "retry"; "cancelled"].

(** Modelled from the spec: [statusToString] of [buildbot.process.results]
    (not part of the sources at hand), "the canonical display name of
    that result code".  The seven result codes are named by [Results]; a
    numeric code outside them has no canonical name, and gets the results
    module's placeholder word "Invalid status". *)
Definition statusToString (status : Z) : string :=
  match Results !! Z.to_nat status with
  | Some name => if decide (0 <= status)%Z then name else "Invalid status"
  | None => "Invalid status"
  end.

(** Python truthiness of [previous_results] (an int or [None]). *)
Definition truthy_result (r : option Z) : bool :=
  match r with
  | Some z => negb (Z.eqb z 0)
  | None => false
  end.

(** [previous_results != x] with [previous_results] possibly [None]. *)
Definition result_ne (r : option Z) (x : Z) : bool :=
  match r with
  | Some z => negb (Z.eqb z x)
  | None => true
  end.

Definition is_not_None {A} (o : option A) : bool :=
  match o with Some _ => true | None => false end.

(** [get_detected_status_text(mode, results, previous_results)] *)
Definition get_detected_status_text (mode : list string) (results : Z)
    (previous_results : option Z) : string :=
  if Z.eqb results FAILURE then
    if mode_has "change" mode && is_not_None previous_results
       && result_ne previous_results results then "new failure"
    else if mode_has "problem" mode && truthy_result previous_results
       && result_ne previous_results FAILURE then "new failure"
    else "failed build"
  else if Z.eqb results WARNINGS then "problem in the build"
  else if Z.eqb results SUCCESS then
    if mode_has "change" mode && is_not_None previous_results
       && result_ne previous_results results then "restored build"
    else "passing build"
  else if Z.eqb results EXCEPTION then "build exception"
  else statusToString results ++ " build".

Example detected_change_warnings :
  get_detected_status_text ["change"] FAILURE (Some WARNINGS) = "new failure".
Proof. reflexivity. Qed.

Example detected_change_failure :
  get_detected_status_text ["change"] FAILURE (Some FAILURE) = "failed build".
Proof. reflexivity. Qed.

(* ------------------------------------------------------------------ *)
(** ** Records read by the formatter *)

(** A source stamp: the fields [branch], [revision], [patch], [codebase]
    and [project] of the data API's sourcestamp dict.  A patch is an
    opaque dict; only its presence ([is not None]) matters here. *)
Record sourcestamp := {
  ss_branch : option string;
  ss_revision : option string;
  ss_patch : option string;
  ss_codebase : option string;
  ss_project : option string
}.

(** The fields of a build dict that the formatter reads.
    [b_workername] is the value of the [workername] property, if any;
    [b_prev_build] is [None] when ['prev_build'] is absent or [None],
    and otherwise carries the previous build's ['results']. *)
Record build := {
  b_results : Z;
  b_state_string : option string;
  b_workername : option string;
  b_builderid : Z;
  b_number : Z;
  b_sourcestamps : list sourcestamp;
  b_prev_build : option (option Z)
}.

(** The parts of [master.config] that the formatter reads. *)
Record master := {
  m_title : string;
  m_buildbotURL : string
}.

(** [get_message_summary_text(build, results)] *)
Definition get_message_summary_text (b : build) (results : Z) : string :=
  let t := if truthy (b_state_string b)
           then ": " ++ default "" (b_state_string b) else "" in
  if Z.eqb results SUCCESS then "Build succeeded!"
  else if Z.eqb results WARNINGS then "Build Had Warnings" ++ t
  else if Z.eqb results CANCELLED then "Build was cancelled"
  else "BUILD FAILED" ++ t.

Definition nl : string := String (ascii_of_nat 10) EmptyString.

(** One iteration of the loop of [get_message_source_stamp_text]. *)
Definition source_stamp_line (ss : sourcestamp) : string :=
  let source :=
    (if truthy (ss_branch ss)
     then "[branch " ++ default "" (ss_branch ss) ++ "] " else "") in
  let source :=
    source ++ (if truthy (ss_revision ss)
               then default "" (ss_revision ss) else "HEAD") in
  let source :=
    source ++ (if is_not_None (ss_patch ss) then " (plus patch)" else "") in
  let discriminator :=
    if truthy (ss_codebase ss)
    then " '" ++ default "" (ss_codebase ss) ++ "'" else "" in
  "Build Source Stamp" ++ discriminator ++ ": " ++ source ++ nl.

(** [get_message_source_stamp_text(source_stamps)]: [text += ...] over
    the stamps, starting from [""]. *)
Definition get_message_source_stamp_text (source_stamps : list sourcestamp)
    : string :=
  fold_left (fun text ss => text ++ source_stamp_line ss) source_stamps "".

(** The set [projects] built by [get_projects_text]. *)
Definition projects_set (source_stamps : list sourcestamp) : gset string :=
  fold_left (fun projects ss =>
               if truthy (ss_project ss)
               then {[ default "" (ss_project ss) ]} ∪ projects
               else projects) source_stamps ∅.

(** [', '.join(list)] *)
Fixpoint join (sep : string) (l : list string) : string :=
  match l with
  | [] => ""
  | [x] => x
  | x :: rest => x ++ sep ++ join sep rest
  end.

(** [get_projects_text(source_stamps, master)]: the set is iterated in
    the set's own order, here [elements]; an empty set falls back to the
    one-element list [[master.config.title]]. *)
Definition get_projects_text (source_stamps : list sourcestamp) (m : master)
    : string :=
  let projects := projects_set source_stamps in
  if decide (projects = ∅) then join ", " [m_title m]
  else join ", " (elements projects).

Definition stamp_main : sourcestamp :=
  {| ss_branch := Some "main"; ss_revision := Some "abc123"; ss_patch := None;
     ss_codebase := Some ""; ss_project := Some "" |}.

Example source_stamp_text_main :
  get_message_source_stamp_text [stamp_main]
  = "Build Source Stamp: [branch main] abc123" ++ nl.
Proof. reflexivity. Qed.

Example projects_text_empty :
  get_projects_text [] {| m_title := "MyProject"; m_buildbotURL := "" |}
  = "MyProject".
Proof. reflexivity. Qed.

(* ------------------------------------------------------------------ *)
(** ** Exceptions and the error monad *)

Inductive error :=
  | ConfigurationError (msg : string)      (** [config.error] *)
  | TemplateNotFound (name : string)       (** [jinja2.TemplateNotFound] *)
  | TemplateSyntaxError                    (** [jinja2.TemplateSyntaxError] *)
  | UndefinedError (key : string).         (** [jinja2.UndefinedError] *)

Inductive result (A : Type) :=
  | Ok (a : A)
  | Err (e : error).
Arguments Ok {A} a.
Arguments Err {A} e.

Global Instance result_ret : MRet result := fun A a => Ok a.
Global Instance result_bind : MBind result := fun A B f m =>
  match m with Ok a => f a | Err e => Err e end.

(** Modelled from the spec: [buildbot.config.error] (not part of the
    sources at hand); "Fails with ConfigurationError". *)
Definition config_error (msg : string) : result unit := Err (ConfigurationError msg).

(* ------------------------------------------------------------------ *)
(** ** Rendering-context values *)

(** Opaque records placed into the context as they are. *)
Inductive pyobj :=
  | PBuild (b : build)
  | PBuildset (sourcestamps : list sourcestamp)
  | PWorker (w : string).

Inductive value :=
  | VStr (s : string)
  | VInt (z : Z)
  | VNone
  | VStrList (l : list string)
  | VObj (o : pyobj).

(** A rendering context: a dict from names to values. *)
Abbreviation context := (gmap string value).

(* ------------------------------------------------------------------ *)
(** ** Templates (the part of jinja2 the formatter relies on) *)

(** A compiled template is a sequence of literal text and [{{ name }}]
    substitutions, with the environment's [undefined] class. *)
Inductive segment :=
  | Lit (s : string)
  | Var (name : string).

Inductive undefined_kind := DefaultUndefined | StrictUndefined.

Record template := {
  t_segments : list segment;
  t_undefined : undefined_kind
}.

Definition string_rev (s : string) : string :=
  string_of_list_ascii (rev (list_ascii_of_string s)).

Definition is_space (c : ascii) : bool := Ascii.eqb c " "%char.

Fixpoint strip_leading (s : string) : string :=
  match s with
  | String c rest => if is_space c then strip_leading rest else s
  | EmptyString => EmptyString
  end.

Definition strip (s : string) : string :=
  string_rev (strip_leading (string_rev (strip_leading s))).

(** The expression between [{{] and [}}]: [Some (name, rest)]. *)
Fixpoint lex_var (s : string) (acc : string) : option (string * string) :=
  match s with
  | EmptyString => None
  | String "}" (String "}" rest) => Some (strip acc, rest)
  | String c rest => lex_var rest (acc ++ String c EmptyString)
  end.

Definition emit (lit : string) (segs : list segment) : list segment :=
  if String.eqb lit "" then segs else Lit lit :: segs.

(** The lexer: each step consumes at least one character, so [fuel]
    [length s + 1] suffices. *)
Fixpoint lex (fuel : nat) (s : string) (lit : string) : option (list segment) :=
  match fuel with
  | O => None
  | S fuel' =>
    match s with
    | EmptyString => Some (emit lit [])
    | String "{" (String "{" rest) =>
        match lex_var rest "" with
        | None => None
        | Some (name, rest') =>
            segs ← lex fuel' rest' ""; Some (emit lit (Var name :: segs))
        end
    | String c rest => lex fuel' rest (lit ++ String c EmptyString)
    end
  end.

(** jinja2 drops one trailing newline ([keep_trailing_newline=False]). *)
Definition drop_trailing_newline (s : string) : string :=
  match string_rev s with
  | String c rest => if Ascii.eqb c (ascii_of_nat 10) then string_rev rest else s
  | EmptyString => s
  end.

Definition compile (source : string) (u : undefined_kind) : result template :=
  let src := drop_trailing_newline source in
  match lex (S (String.length src)) src "" with
  | Some segs => Ok {| t_segments := segs; t_undefined := u |}
  | None => Err TemplateSyntaxError
  end.

(** [str(value)] as jinja2 prints it; records are printed by [str_obj]. *)
Section Render.
Variable str_obj : pyobj -> string.

Definition value_str (v : value) : string :=
  match v with
  | VStr s => s
  | VInt z => pretty z
  | VNone => "None"
  | VStrList l => "[" ++ join ", " (map (fun s => "'" ++ s ++ "'") l) ++ "]"
  | VObj o => str_obj o
  end.

(** A missing name renders as [""] with jinja2's default [Undefined] and
    raises with [StrictUndefined]. *)
Definition render_segment (u : undefined_kind) (ctx : context) (sg : segment)
    : result string :=
  match sg with
  | Lit s => Ok s
  | Var k =>
      match ctx !! k with
      | Some v => Ok (value_str v)
      | None =>
          match u with
          | DefaultUndefined => Ok ""
          | StrictUndefined => Err (UndefinedError k)
          end
      end
  end.

Fixpoint render_segments (u : undefined_kind) (ctx : context) (segs : list segment)
    : result string :=
  match segs with
  | [] => Ok ""
  | sg :: rest =>
      s ← render_segment u ctx sg; r ← render_segments u ctx rest; Ok (s ++ r)
  end.

(** [template.render(ctx)] *)
Definition render (t : template) (ctx : context) : result string :=
  render_segments (t_undefined t) ctx (t_segments t).
End Render.

(* ------------------------------------------------------------------ *)
(** ** The formatter classes *)

(** The class attributes [template_filename] and [template_type]. *)
Record formatter_class := {
  cls_template_filename : string;
  cls_template_type : string
}.

Definition MessageFormatterBase_cls : formatter_class :=
  {| cls_template_filename := "default_mail.txt"; cls_template_type := "plain" |}.
Definition MessageFormatter_cls : formatter_class :=
  {| cls_template_filename := "default_mail.txt"; cls_template_type := "plain" |}.
Definition MessageFormatterMissingWorker_cls : formatter_class :=
  {| cls_template_filename := "missing_mail.txt"; cls_template_type := "plain" |}.

(** The instance attributes set by [MessageFormatterBase.__init__]. *)
Record formatter := {
  body_template : template;
  subject_template : option template;
  template_type : string;
  f_ctx : context
}.

(** The dict returned by [renderMessage]; [msg_subject] is [None] when
    the key ['subject'] is absent. *)
Record msgdict := {
  msg_body : string;
  msg_type : string;
  msg_subject : option string
}.

(** [os.path.join(os.path.dirname(__file__), "templates")] *)
Definition bundled_templates_dir : string := "master/buildbot/reporters/templates".

Section Formatter.
(** The template files: [fs dir name] is the content of [dir/name]. *)
Variable fs : string -> string -> option string.
(** [str()] of the records placed in the context. *)
Variable str_obj : pyobj -> string.
(** [utils.getURLForBuild(master, builderid, number)]. *)
Variable getURLForBuild : master -> Z -> Z -> string.
(** [buildAdditionalContext(master, ctx)]: the extension hook, which
    updates [ctx] in place (the base class does nothing). *)
Variable buildAdditionalContext : master -> context -> context.

(** [jinja2.Environment(loader=FileSystemLoader(dirname),
    undefined=StrictUndefined).get_template(filename)] *)
Definition env_get_template (dirname filename : string) : result template :=
  match fs dirname filename with
  | Some source => compile source StrictUndefined
  | None => Err (TemplateNotFound filename)
  end.

(** [MessageFormatterBase.getTemplate(self, filename, dirname, content)] *)
Definition getTemplate (cls : formatter_class)
    (filename dirname content : option string) : result template :=
  (if truthy content && (truthy filename || truthy dirname)
   then config_error "Only one of template or template path can be given"
   else Ok tt) ≫= fun _ =>
  if truthy content then compile (default "" content) DefaultUndefined
  else
    let dirname := default bundled_templates_dir dirname in
    let filename := default (cls_template_filename cls) filename in
    env_get_template dirname filename.

(** [MessageFormatterBase.__init__] *)
Definition MessageFormatterBase_init (cls : formatter_class)
    (template_dir template_filename template subject_filename subject
     template_type : option string) (ctx : option context)
    : result formatter :=
  body ← getTemplate cls template_filename template_dir template;
  subj ← (if truthy subject_filename || truthy subject
          then t ← getTemplate cls subject_filename template_dir subject; Ok (Some t)
          else Ok None);
  Ok {| body_template := body;
        subject_template := subj;
        template_type := default (cls_template_type cls) template_type;
        f_ctx := default ∅ ctx |}.

(** [MessageFormatter.__init__]: the deprecated [template_name] replaces
    [template_filename]. *)
Definition MessageFormatter_init
    (template_dir template_filename template template_name subject_filename
     subject template_type : option string) (ctx : option context)
    : result formatter :=
  let template_filename :=
    match template_name with Some n => Some n | None => template_filename end in
  MessageFormatterBase_init MessageFormatter_cls template_dir template_filename
    template subject_filename subject template_type ctx.

(** [MessageFormatterBase.renderMessage(self, ctx)] *)
Definition renderMessage (f : formatter) (ctx : context) : result msgdict :=
  body ← render str_obj (body_template f) ctx;
  match subject_template f with
  | None => Ok {| msg_body := body; msg_type := template_type f; msg_subject := None |}
  | Some st =>
      subject ← render str_obj st ctx;
      Ok {| msg_body := body; msg_type := template_type f; msg_subject := Some subject |}
  end.

Definition opt_result_value (r : option Z) : value :=
  match r with Some z => VInt z | None => VNone end.

(** The previous build's results, or [None]. *)
Definition previous_results_of (b : build) : option Z :=
  match b_prev_build b with Some r => r | None => None end.

(** The dict built by [format_message_for_build] before the hook runs. *)
Definition context_for_build (mode : list string) (buildername : string)
    (b : build) (m : master) (blamelist : list string) : context :=
  let ss_list := b_sourcestamps b in
  let results := b_results b in
  let previous_results := previous_results_of b in
  list_to_map
    [("results", VInt (b_results b));
     ("mode", VStrList mode);
     ("buildername", VStr buildername);
     ("workername", VStr (default "<unknown>" (b_workername b)));
     ("buildset", VObj (PBuildset ss_list));
     ("build", VObj (PBuild b));
     ("projects", VStr (get_projects_text ss_list m));
     ("previous_results", opt_result_value previous_results);
     ("status_detected",
        VStr (get_detected_status_text mode results previous_results));
     ("build_url", VStr (getURLForBuild m (b_builderid b) (b_number b)));
     ("buildbot_url", VStr (m_buildbotURL m));
     ("blamelist", VStrList blamelist);
     ("summary", VStr (get_message_summary_text b results));
     ("sourcestamps", VStr (get_message_source_stamp_text ss_list))].

(** [ctx.update(self.ctx)]: the formatter's dict wins. *)
Definition ctx_update (ctx extra : context) : context := extra ∪ ctx.

(** The context rendered by [format_message_for_build]: hook, then update. *)
Definition final_context_for_build (f : formatter) (mode : list string)
    (buildername : string) (b : build) (m : master) (blamelist : list string)
    : context :=
  let ctx := context_for_build mode buildername b m blamelist in
  let ctx := buildAdditionalContext m ctx in
  ctx_update ctx (f_ctx f).

(** [MessageFormatter.format_message_for_build] *)
Definition format_message_for_build (f : formatter) (mode : list string)
    (buildername : string) (b : build) (m : master) (blamelist : list string)
    : result msgdict :=
  renderMessage f (final_context_for_build f mode buildername b m blamelist).

Definition context_for_missing_worker (m : master) (worker : string) : context :=
  list_to_map
    [("buildbot_title", VStr (m_title m));
     ("buildbot_url", VStr (m_buildbotURL m));
     ("worker", VObj (PWorker worker))].

Definition final_context_for_missing_worker (f : formatter) (m : master)
    (worker : string) : context :=
  let ctx := context_for_missing_worker m worker in
  let ctx := buildAdditionalContext m ctx in
  ctx_update ctx (f_ctx f).

(** [MessageFormatterMissingWorker.formatMessageForMissingWorker] *)
Definition formatMessageForMissingWorker (f : formatter) (m : master)
    (worker : string) : result msgdict :=
  renderMessage f (final_context_for_missing_worker f m worker).
End Formatter.

(* ------------------------------------------------------------------ *)
(** ** Concrete instances *)

(** A template directory with the two bundled templates. *)
Definition bundled_fs (dir name : string) : option string :=
  if String.eqb dir bundled_templates_dir then
    if String.eqb name "default_mail.txt" then Some ("{{ summary }}" ++ nl)
    else if String.eqb name "missing_mail.txt" then Some "worker {{ worker }} is missing"
    else None
  else None.

Definition show_obj (o : pyobj) : string :=
  match o with
  | PBuild _ => "<build>"
  | PBuildset _ => "<buildset>"
  | PWorker w => w
  end.

Definition inline_formatter : result formatter :=
  MessageFormatter_init bundled_fs None None (Some "{{ summary }}") None None None
    None None.

Example inline_roundtrip :
  (f ← inline_formatter;
   renderMessage show_obj f {[ "summary" := VStr "Build succeeded!" ]})
  = Ok {| msg_body := "Build succeeded!"; msg_type := "plain"; msg_subject := None |}.
Proof. reflexivity. Qed.

(* ------------------------------------------------------------------ *)
(** ** Statements in the spec's words *)

Definition nonempty (s : option string) : Prop := exists x, s = Some x /\ x <> "".

(** The nine strings of the status-text table: six fixed texts and the
    generic "<name> build" of the three other result codes. *)
Definition nine_status_texts : list string :=
  ["new failure"; "failed build"; "problem in the build"; "restored build";
   "passing build"; "build exception"; "skipped build"; "retry build";
   "cancelled build"].

(** [summaryText(build, results)] as the spec words it. *)
Definition summary_suffix_spec (b : build) : string :=
  match b_state_string b with
  | Some s => if String.eqb s "" then "" else ": " ++ s
  | None => ""
  end.

Definition summary_text_spec (b : build) (results : Z) : string :=
  if Z.eqb results SUCCESS then "Build succeeded!"
  else if Z.eqb results WARNINGS then "Build Had Warnings" ++ summary_suffix_spec b
  else if Z.eqb results CANCELLED then "Build was cancelled"
  else "BUILD FAILED" ++ summary_suffix_spec b.

(** One line of [sourceStampText] as the spec words it. *)
Definition present_or (s : option string) (dflt : string) : string :=
  match s with Some x => if String.eqb x "" then dflt else x | None => dflt end.

Definition stamp_line_spec (ss : sourcestamp) : string :=
  "Build Source Stamp"
  ++ (match ss_codebase ss with
      | Some c => if String.eqb c "" then "" else " '" ++ c ++ "'"
      | None => "" end)
  ++ ": "
  ++ (match ss_branch ss with
      | Some br => if String.eqb br "" then "" else "[branch " ++ br ++ "] "
      | None => "" end)
  ++ present_or (ss_revision ss) "HEAD"
  ++ (match ss_patch ss with Some _ => " (plus patch)" | None => "" end)
  ++ nl.

Definition source_stamp_text_spec (stamps : list sourcestamp) : string :=
  foldr String.append "" (map stamp_line_spec stamps).

(* ------------------------------------------------------------------ *)
(** ** Basic facts *)

Lemma string_app_assoc (a b c : string) : a ++ (b ++ c) = (a ++ b) ++ c.
Proof. induction a as [|x a IH]; [reflexivity | exact (f_equal (String x) IH)]. Qed.

Lemma string_app_nil_r (a : string) : a ++ "" = a.
Proof. induction a as [|x a IH]; [reflexivity | exact (f_equal (String x) IH)]. Qed.

Lemma mode_has_In (t : string) (mode : list string) :
  mode_has t mode = true <-> In t mode.
Proof.
  unfold mode_has. rewrite existsb_exists. split.
  - intros [x [Hin Heq]]. apply String.eqb_eq in Heq. by subst.
  - intros Hin. exists t. split; [done | apply String.eqb_refl].
Qed.

Lemma truthy_true (s : option string) : truthy s = true <-> nonempty s.
Proof.
  unfold nonempty. destruct s as [x|]; simpl; split.
  - intros H. exists x. split; [done|]. intros ->. done.
  - intros [y [[= <-] Hy]]. apply negb_true_iff, String.eqb_neq. done.
  - done.
  - by intros [y [? _]].
Qed.

Lemma truthy_default (s : option string) :
  truthy s = true -> exists x, s = Some x /\ default "" s = x /\ x <> "".
Proof. intros H. apply truthy_true in H as [x [-> Hx]]. by exists x. Qed.

Lemma truthy_spec_if (s : option string) (A : string -> string) (d : string) :
  (if truthy s then A (default "" s) else d)
  = match s with Some x => if String.eqb x "" then d else A x | None => d end.
Proof. destruct s as [x|]; simpl; [|done]. by destruct (String.eqb x ""). Qed.

Lemma nonempty_dec_eq (s : option string) : ~ nonempty s -> truthy s = false.
Proof. intros H. destruct (truthy s) eqn:E; [|done]. by apply truthy_true in E. Qed.

Lemma mode_has_elem (t : string) (mode : list string) :
  mode_has t mode = bool_decide (t ∈ mode).
Proof.
  destruct (mode_has t mode) eqn:E; symmetry.
  - apply bool_decide_eq_true, list_elem_of_In, mode_has_In. done.
  - apply bool_decide_eq_false. rewrite list_elem_of_In, <- mode_has_In. congruence.
Qed.

Lemma fold_append_lines (f : sourcestamp -> string) (l : list sourcestamp) (acc : string) :
  fold_left (fun text ss => text ++ f ss) l acc = acc ++ foldr String.append "" (map f l).
Proof.
  revert acc. induction l as [|ss l IH]; intros acc; simpl.
  - by rewrite string_app_nil_r.
  - rewrite IH. by rewrite string_app_assoc.
Qed.

Lemma source_stamp_line_spec (ss : sourcestamp) :
  source_stamp_line ss = stamp_line_spec ss.
Proof.
  destruct ss as [br rev p cb pr].
  unfold source_stamp_line, stamp_line_spec, present_or, truthy, is_not_None; simpl.
  destruct br as [x|]; [destruct (String.eqb x "")|];
  destruct rev as [y|]; try destruct (String.eqb y "");
  destruct cb as [z|]; try destruct (String.eqb z "");
  destruct p; simpl; rewrite <- ?string_app_assoc; reflexivity.
Qed.

(** The FAILURE rows of the status-text table, in the spec's words. *)
Definition failure_text_spec (mode : list string) (prev : option Z) : string :=
  if bool_decide ("change" ∈ mode)
     && (match prev with Some r => bool_decide (r <> FAILURE) | None => false end)
  then "new failure"
  else if bool_decide ("problem" ∈ mode)
     && (match prev with Some r => bool_decide (r <> 0%Z /\ r <> FAILURE) | None => false end)
  then "new failure"
  else "failed build".

(** The SUCCESS rows of the status-text table, in the spec's words. *)
Definition success_text_spec (mode : list string) (prev : option Z) : string :=
  if bool_decide ("change" ∈ mode)
     && (match prev with Some r => bool_decide (r <> SUCCESS) | None => false end)
  then "restored build"
  else "passing build".

(* ------------------------------------------------------------------ *)
(** ** Status texts *)

(** C2: for results FAILURE the text is "new failure" when mode has
    "change" and previous_results is not None and differs from FAILURE;
    otherwise "new failure" when mode has "problem" and previous_results
    is truthy (not None, not 0) and differs from FAILURE; otherwise
    "failed build".  The "change" test comes first. *)
Theorem detected_status_text_failure (mode : list string) (previous_results : option Z) :
  get_detected_status_text mode FAILURE previous_results
  = failure_text_spec mode previous_results.
Proof.
  unfold get_detected_status_text, failure_text_spec. simpl.
  rewrite !mode_has_elem.
  destruct previous_results as [r|]; simpl.
  - unfold FAILURE.
    destruct (Z.eqb_spec r 2); destruct (Z.eqb_spec r 0); subst; simpl;
      repeat case_bool_decide; simpl; try done; lia.
  - by rewrite !andb_false_r.
Qed.

(** C4: the summary is "Build succeeded!" for SUCCESS, "Build Had
    Warnings" plus the suffix for WARNINGS, "Build was cancelled" for
    CANCELLED whatever the state string, and "BUILD FAILED" plus the
    suffix for any other code; the suffix is ": " and the state string
    when it is non-empty, and "" otherwise. *)
Theorem summary_text_table (b : build) (results : Z) :
  get_message_summary_text b results = summary_text_spec b results.
Proof.
  unfold get_message_summary_text, summary_text_spec, summary_suffix_spec.
  destruct (b_state_string b) as [s|]; simpl; [destruct (String.eqb s "")|]; reflexivity.
Qed.

(** C7: the source-stamp text is the concatenation, in order, of one
    newline-terminated line per stamp: "Build Source Stamp", the quoted
    codebase when non-empty, ": ", "[branch <branch>] " when the branch
    is non-empty, the revision or "HEAD", and " (plus patch)" when a
    patch is present.  No stamps give "". *)
Theorem source_stamp_text_lines (source_stamps : list sourcestamp) :
  get_message_source_stamp_text source_stamps = source_stamp_text_spec source_stamps.
Proof.
  unfold get_message_source_stamp_text, source_stamp_text_spec.
  rewrite (fold_append_lines source_stamp_line).
  rewrite (map_ext source_stamp_line stamp_line_spec source_stamp_line_spec).
  reflexivity.
Qed.

(** C6 (as amended): the status text is never empty; for each of the
    seven result codes (0 to 6) it is one of the nine table strings; for
    SUCCESS it is "restored build" when mode has "change" and
    previous_results is known and differs from SUCCESS, "passing build"
    otherwise; WARNINGS gives "problem in the build" and EXCEPTION gives
    "build exception"; every other code gets the generic text
    [statusToString(code) ++ " build"], which is "Invalid status build"
    for a code outside 0 to 6. *)
Theorem detected_status_text_range (mode : list string) (results : Z)
    (previous_results : option Z) :
  get_detected_status_text mode results previous_results <> "" /\
  ((0 <= results <= 6)%Z ->
   In (get_detected_status_text mode results previous_results) nine_status_texts) /\
  get_detected_status_text mode SUCCESS previous_results
    = success_text_spec mode previous_results /\
  get_detected_status_text mode WARNINGS previous_results = "problem in the build" /\
  get_detected_status_text mode EXCEPTION previous_results = "build exception" /\
  (results <> SUCCESS -> results <> WARNINGS -> results <> FAILURE ->
   results <> EXCEPTION ->
   get_detected_status_text mode results previous_results
   = statusToString results ++ " build") /\
  ((results < 0 \/ 6 < results)%Z ->
   get_detected_status_text mode results previous_results = "Invalid status build").
Proof.
  assert (Hgen : results <> SUCCESS -> results <> WARNINGS -> results <> FAILURE ->
            results <> EXCEPTION ->
            get_detected_status_text mode results previous_results
            = statusToString results ++ " build").
  { intros H1 H2 H3 H4. unfold get_detected_status_text.
    apply Z.eqb_neq in H1, H2, H3, H4. by rewrite H1, H2, H3, H4. }
  split; [|split; [|split; [|split; [|split; [|split]]]]].
  - unfold get_detected_status_text.
    repeat case_match; try discriminate.
    destruct (statusToString results); discriminate.
  - intros Hr.
    assert (results = 0 \/ results = 1 \/ results = 2 \/ results = 3 \/
            results = 4 \/ results = 5 \/ results = 6)%Z as Hc by lia.
    unfold nine_status_texts.
    destruct Hc as [->|[->|[->|[->|[->|[->| ->]]]]]];
      unfold get_detected_status_text; simpl; repeat case_match; simpl; tauto.
  - unfold get_detected_status_text, success_text_spec. simpl.
    rewrite mode_has_elem.
    destruct previous_results as [r|]; simpl; [|by rewrite andb_false_r].
    unfold SUCCESS. destruct (Z.eqb_spec r 0); subst; simpl;
      repeat case_bool_decide; simpl; try done; lia.
  - reflexivity.
  - reflexivity.
  - exact Hgen.
  - intros Hr. rewrite Hgen by (unfold SUCCESS, WARNINGS, FAILURE, EXCEPTION; lia).
    unfold statusToString.
    destruct (Results !! Z.to_nat results) as [name|] eqn:E; [|reflexivity].
    case_decide; [|reflexivity].
    apply lookup_lt_Some in E. simpl in E. lia.
Qed.

Lemma detected_status_text_range_witness :
  ((0 <= CANCELLED <= 6)%Z /\
   In (get_detected_status_text ["change"] CANCELLED (Some FAILURE)) nine_status_texts) /\
  ((7 < 0 \/ 6 < 7)%Z /\
   get_detected_status_text ["change"] 7 None = "Invalid status build").
Proof.
  split; split.
  - unfold CANCELLED; lia.
  - apply (proj1 (proj2 (detected_status_text_range ["change"] CANCELLED (Some FAILURE)))).
    unfold CANCELLED; lia.
  - lia.
  - pose proof (detected_status_text_range ["change"] 7 None) as (_ & _ & _ & _ & _ & _ & H).
    apply H. lia.
Defined.

(** C6 fails as stated: a numeric code outside the seven result codes
    gets the generic text "Invalid status build", not one of the nine. *)
Lemma detected_status_text_other_code :
  get_detected_status_text ["change"] 7 None = "Invalid status build" /\
  ~ In (get_detected_status_text ["change"] 7 None) nine_status_texts.
Proof. split; [reflexivity | vm_compute; intuition discriminate]. Qed.

(* ------------------------------------------------------------------ *)
(** ** Project text *)

(** [x] is the non-empty [project] field of one of the stamps. *)
Definition project_of (source_stamps : list sourcestamp) (x : string) : Prop :=
  exists ss, In ss source_stamps /\ ss_project ss = Some x /\ x <> "".

Lemma projects_set_fold (l : list sourcestamp) (acc : gset string) (x : string) :
  x ∈ fold_left (fun projects ss =>
                   if truthy (ss_project ss)
                   then {[ default "" (ss_project ss) ]} ∪ projects
                   else projects) l acc
  <-> x ∈ acc \/ project_of l x.
Proof.
  unfold project_of. revert acc. induction l as [|ss l IH]; intros acc; simpl.
  - split; [by left | intros [H|[? [[] _]]]; done].
  - rewrite IH. destruct (truthy (ss_project ss)) eqn:E.
    + apply truthy_default in E as [y [Hy [-> Hne]]].
      rewrite elem_of_union, elem_of_singleton. split.
      * intros [[->|H]|[ss' [Hin H']]]; [right; exists ss; auto | by left |
          right; exists ss'; auto].
      * intros [H|[ss' [[<-|Hin] [Hp Hx]]]]; [by left; right | |].
        -- left; left. congruence.
        -- right. exists ss'. auto.
    + split.
      * intros [H|[ss' [Hin H']]]; [by left | right; exists ss'; auto].
      * intros [H|[ss' [[<-|Hin] [Hp Hx]]]]; [by left | | right; exists ss'; auto].
        exfalso. rewrite Hp in E. simpl in E.
        apply negb_false_iff, String.eqb_eq in E. done.
Qed.

Lemma projects_set_spec (l : list sourcestamp) (x : string) :
  x ∈ projects_set l <-> project_of l x.
Proof.
  unfold projects_set. rewrite projects_set_fold. set_solver.
Qed.

(** C8: the project text joins, with ", ", a duplicate-free list of
    exactly the non-empty project fields of the stamps; when no stamp
    has one, it is the master's title. *)
Theorem projects_text_spec (source_stamps : list sourcestamp) (m : master) :
  ((exists ss, In ss source_stamps /\ nonempty (ss_project ss)) ->
   exists ps, get_projects_text source_stamps m = join ", " ps /\ NoDup ps /\
              (forall x, In x ps <-> project_of source_stamps x)) /\
  ((forall ss, In ss source_stamps -> ~ nonempty (ss_project ss)) ->
   get_projects_text source_stamps m = m_title m).
Proof.
  unfold get_projects_text. split.
  - intros [ss [Hin [x [Hx Hne]]]].
    assert (x ∈ projects_set source_stamps) as Hx'.
    { apply projects_set_spec. exists ss. auto. }
    rewrite decide_False by set_solver.
    exists (elements (projects_set source_stamps)).
    split; [done|]. split; [apply NoDup_elements|].
    intros y. rewrite <- list_elem_of_In, elem_of_elements. apply projects_set_spec.
  - intros Hnone.
    rewrite decide_True; [done|].
    apply set_eq. intros x. rewrite projects_set_spec. split; [|set_solver].
    intros [ss [Hin [Hp Hne]]]. exfalso. apply (Hnone ss Hin). by exists x.
Qed.

Definition stamp_project (p : string) : sourcestamp :=
  {| ss_branch := None; ss_revision := None; ss_patch := None;
     ss_codebase := None; ss_project := Some p |}.

Lemma projects_text_spec_witness :
  exists ps,
    get_projects_text [stamp_project "A"; stamp_project "B"; stamp_project "A"]
      {| m_title := "X"; m_buildbotURL := "" |} = join ", " ps /\ NoDup ps /\
    (forall x, In x ps <->
       project_of [stamp_project "A"; stamp_project "B"; stamp_project "A"] x).
Proof.
  apply (proj1 (projects_text_spec _ _)).
  exists (stamp_project "A"). split; [by left|]. exists "A". split; [done|discriminate].
Defined.

(* ------------------------------------------------------------------ *)
(** ** Context merging *)

Lemma ctx_update_lookup (ctx extra : context) (k : string) :
  ctx_update ctx extra !! k
  = match extra !! k with Some v => Some v | None => ctx !! k end.
Proof. unfold ctx_update. rewrite lookup_union. by destruct (extra !! k), (ctx !! k). Qed.

Lemma ctx_update_extra (ctx extra : context) (k : string) (v : value) :
  extra !! k = Some v -> ctx_update ctx extra !! k = Some v.
Proof. rewrite ctx_update_lookup. by intros ->. Qed.

Lemma ctx_update_keeps (ctx extra : context) (k : string) :
  is_Some (ctx !! k) -> is_Some (ctx_update ctx extra !! k).
Proof. rewrite ctx_update_lookup. destruct (extra !! k); done. Qed.

Lemma ctx_update_other (ctx extra : context) (k : string) :
  extra !! k = None -> ctx_update ctx extra !! k = ctx !! k.
Proof. rewrite ctx_update_lookup. by intros ->. Qed.

(** C5: both formatters render the context obtained by running the hook
    on the computed context and then updating it with the formatter's
    [ctx]; every key of that map gets its value, no key of the hook's
    context is lost, and every other key keeps the hook's value. *)
Theorem extra_context_wins
    (str_obj : pyobj -> string)
    (getURLForBuild : master -> Z -> Z -> string)
    (buildAdditionalContext : master -> context -> context)
    (f : formatter) (mode : list string) (buildername : string) (b : build)
    (m : master) (blamelist : list string) (worker : string) :
  let ctx_b := buildAdditionalContext m
                 (context_for_build getURLForBuild mode buildername b m blamelist) in
  let final_b := final_context_for_build getURLForBuild buildAdditionalContext f
                   mode buildername b m blamelist in
  let ctx_w := buildAdditionalContext m (context_for_missing_worker m worker) in
  let final_w := final_context_for_missing_worker buildAdditionalContext f m worker in
  format_message_for_build str_obj getURLForBuild buildAdditionalContext f mode
    buildername b m blamelist = renderMessage str_obj f final_b /\
  formatMessageForMissingWorker str_obj buildAdditionalContext f m worker
    = renderMessage str_obj f final_w /\
  (forall k v, f_ctx f !! k = Some v -> final_b !! k = Some v /\ final_w !! k = Some v) /\
  (forall k, is_Some (ctx_b !! k) -> is_Some (final_b !! k)) /\
  (forall k, is_Some (ctx_w !! k) -> is_Some (final_w !! k)) /\
  (forall k, f_ctx f !! k = None -> final_b !! k = ctx_b !! k /\ final_w !! k = ctx_w !! k).
Proof.
  intros ctx_b final_b ctx_w final_w.
  split; [reflexivity|]. split; [reflexivity|].
  split; [|split; [|split]].
  - intros k v Hk. split; by apply ctx_update_extra.
  - intros k. apply ctx_update_keeps.
  - intros k. apply ctx_update_keeps.
  - intros k Hk. split; by apply ctx_update_other.
Qed.

(* ------------------------------------------------------------------ *)
(** ** Rendering a message *)

(** C9: [renderMessage] returns a dict exactly when the body template
    (and the subject template, when there is one) renders; the dict holds
    the rendered body, the formatter's [template_type], and a subject
    rendered over the same context if and only if a subject template is
    configured.  The type is the same for every context. *)
Theorem renderMessage_shape (str_obj : pyobj -> string) (f : formatter) :
  (forall (ctx : context) (msg : msgdict),
     renderMessage str_obj f ctx = Ok msg <->
     render str_obj (body_template f) ctx = Ok (msg_body msg) /\
     msg_type msg = template_type f /\
     match subject_template f with
     | None => msg_subject msg = None
     | Some st => exists s, render str_obj st ctx = Ok s /\ msg_subject msg = Some s
     end) /\
  (forall (ctx1 ctx2 : context) (msg1 msg2 : msgdict),
     renderMessage str_obj f ctx1 = Ok msg1 ->
     renderMessage str_obj f ctx2 = Ok msg2 ->
     msg_type msg1 = msg_type msg2).
Proof.
  assert (forall ctx msg, renderMessage str_obj f ctx = Ok msg ->
            msg_type msg = template_type f) as Htype.
  { intros ctx msg. unfold renderMessage.
    destruct (render str_obj (body_template f) ctx); simpl; [|discriminate].
    destruct (subject_template f) as [st|]; [|by intros [= <-]].
    destruct (render str_obj st ctx); simpl; [by intros [= <-] | discriminate]. }
  split.
  - intros ctx msg. unfold renderMessage. split.
    + destruct (render str_obj (body_template f) ctx) as [body|e]; simpl; [|discriminate].
      destruct (subject_template f) as [st|].
      * destruct (render str_obj st ctx) as [s|e]; simpl; [|discriminate].
        intros [= <-]. simpl. eauto.
      * intros [= <-]. simpl. eauto.
    + destruct msg as [body ty subj]; simpl. intros [-> [-> Hs]]. simpl.
      destruct (subject_template f) as [st|].
      * destruct Hs as [s [-> ->]]. reflexivity.
      * by subst.
  - intros ctx1 ctx2 msg1 msg2 H1 H2.
    by rewrite (Htype _ _ H1), (Htype _ _ H2).
Qed.

Definition user_fs (dir name : string) : option string :=
  if String.eqb dir "mytemplates" then
    if String.eqb name "mail.txt" then Some "{{ summary }}"
    else if String.eqb name "subject.txt" then Some "Build {{ buildername }}"
    else None
  else None.

(** The formatter configured with both files of [mytemplates]. *)
Definition user_formatter : formatter :=
  match MessageFormatter_init user_fs (Some "mytemplates") (Some "mail.txt") None None
          (Some "subject.txt") None None None with
  | Ok f => f
  | Err _ => {| body_template := {| t_segments := []; t_undefined := StrictUndefined |};
                subject_template := None; template_type := ""; f_ctx := ∅ |}
  end.

Example user_formatter_init :
  MessageFormatter_init user_fs (Some "mytemplates") (Some "mail.txt") None None
    (Some "subject.txt") None None None = Ok user_formatter.
Proof. reflexivity. Qed.

Lemma renderMessage_shape_witness :
  renderMessage show_obj user_formatter
    (<["buildername" := VStr "b1"]> {[ "summary" := VStr "ok" ]})
  = Ok {| msg_body := "ok"; msg_type := "plain"; msg_subject := Some "Build b1" |}.
Proof.
  apply (proj2 (proj1 (renderMessage_shape show_obj user_formatter) _ _)).
  split; [reflexivity | split; [reflexivity |]].
  vm_compute. eexists; split; reflexivity.
Defined.

(* ------------------------------------------------------------------ *)
(** ** The template store *)

Lemma compile_undefined (src : string) (u : undefined_kind) (t : template) :
  compile src u = Ok t -> t_undefined t = u.
Proof. unfold compile. case_match; [by intros [= <-] | discriminate]. Qed.

Lemma env_get_template_strict (fs : string -> string -> option string)
    (dirname filename : string) (t : template) :
  env_get_template fs dirname filename = Ok t -> t_undefined t = StrictUndefined.
Proof.
  unfold env_get_template. case_match; [apply compile_undefined | discriminate].
Qed.

Lemma env_get_template_not_config (fs : string -> string -> option string)
    (dirname filename msg : string) :
  env_get_template fs dirname filename <> Err (ConfigurationError msg).
Proof.
  unfold env_get_template, compile. repeat case_match; discriminate.
Qed.

(** Templates loaded from a file use [StrictUndefined]... *)
Lemma getTemplate_file_strict (fs : string -> string -> option string)
    (cls : formatter_class) (filename dirname content : option string) (t : template) :
  truthy content = false ->
  getTemplate fs cls filename dirname content = Ok t -> t_undefined t = StrictUndefined.
Proof.
  intros Hc. unfold getTemplate. rewrite Hc. simpl. apply env_get_template_strict.
Qed.

(** ... while inline templates ([jinja2.Template(content)]) use jinja2's
    default [Undefined]. *)
Lemma getTemplate_inline_default (fs : string -> string -> option string)
    (cls : formatter_class) (filename dirname content : option string) (t : template) :
  truthy content = true ->
  getTemplate fs cls filename dirname content = Ok t -> t_undefined t = DefaultUndefined.
Proof.
  intros Hc. unfold getTemplate. rewrite Hc. simpl.
  destruct (truthy filename || truthy dirname); simpl; [discriminate|].
  apply compile_undefined.
Qed.

(** A [StrictUndefined] template fails on a missing name it refers to. *)
Lemma render_strict_missing (str_obj : pyobj -> string) (t : template)
    (ctx : context) (k : string) :
  t_undefined t = StrictUndefined -> Var k ∈ t_segments t -> ctx !! k = None ->
  exists e, render str_obj t ctx = Err e.
Proof.
  intros Hu Hin Hk. unfold render. rewrite Hu.
  induction (t_segments t) as [|sg segs IH]; [by apply elem_of_nil in Hin|].
  simpl. apply elem_of_cons in Hin as [<-|Hin].
  - simpl. rewrite Hk. by eexists.
  - destruct (render_segment str_obj StrictUndefined ctx sg); simpl; [|by eexists].
    destruct (IH Hin) as [e ->]. by eexists.
Qed.

(** C3: [getTemplate] raises the configuration error when non-empty
    inline content comes with a non-empty file name or directory, and so
    does the constructor for the body template; without inline content
    it loads [filename] (defaulting to the class's file) from [dirname]
    (defaulting to the bundled directory), and a missing file raises
    [TemplateNotFound]. *)
Theorem getTemplate_sources (fs : string -> string -> option string)
    (cls : formatter_class) (filename dirname content : option string) :
  (nonempty content -> nonempty filename \/ nonempty dirname ->
   getTemplate fs cls filename dirname content
   = Err (ConfigurationError "Only one of template or template path can be given")) /\
  (~ nonempty content ->
   getTemplate fs cls filename dirname content
   = env_get_template fs (default bundled_templates_dir dirname)
       (default (cls_template_filename cls) filename)) /\
  (~ nonempty content ->
   fs (default bundled_templates_dir dirname) (default (cls_template_filename cls) filename)
     = None ->
   getTemplate fs cls filename dirname content
   = Err (TemplateNotFound (default (cls_template_filename cls) filename))) /\
  (forall subject_filename subject template_type ctx,
   nonempty content -> nonempty filename \/ nonempty dirname ->
   MessageFormatterBase_init fs cls dirname filename content subject_filename subject
     template_type ctx
   = Err (ConfigurationError "Only one of template or template path can be given")).
Proof.
  assert (Hcfg : nonempty content -> nonempty filename \/ nonempty dirname ->
     getTemplate fs cls filename dirname content
     = Err (ConfigurationError "Only one of template or template path can be given")).
  { intros Hc Hf. unfold getTemplate.
    apply truthy_true in Hc. rewrite Hc.
    destruct Hf as [Hf|Hf]; apply truthy_true in Hf; rewrite Hf;
      [|rewrite orb_true_r]; reflexivity. }
  assert (Hload : ~ nonempty content ->
     getTemplate fs cls filename dirname content
     = env_get_template fs (default bundled_templates_dir dirname)
         (default (cls_template_filename cls) filename)).
  { intros Hc. apply nonempty_dec_eq in Hc. unfold getTemplate. by rewrite Hc. }
  split; [done|]. split; [done|]. split.
  - intros Hc Hfs. rewrite (Hload Hc). unfold env_get_template. by rewrite Hfs.
  - intros subject_filename subject template_type ctx Hc Hf.
    unfold MessageFormatterBase_init. by rewrite (Hcfg Hc Hf).
Qed.

Lemma getTemplate_sources_witness :
  (nonempty (Some "{{ summary }}") /\ nonempty (Some "mail.txt")) /\
  getTemplate user_fs MessageFormatter_cls (Some "mail.txt") None (Some "{{ summary }}")
  = Err (ConfigurationError "Only one of template or template path can be given").
Proof.
  assert (nonempty (Some "{{ summary }}")) as Hc by (eexists; split; [done|discriminate]).
  assert (nonempty (Some "mail.txt")) as Hf by (eexists; split; [done|discriminate]).
  split; [done|].
  apply (proj1 (getTemplate_sources user_fs MessageFormatter_cls _ _ _)); [done | by left].
Defined.

(** C10 (as amended): an empty inline template is no inline template:
    [getTemplate] with content [""] behaves as with [None], never raises
    the configuration error, and loads the (defaulted) file; an empty
    [subject] behaves as no [subject], so the subject template is built
    only from a non-empty [subject_filename]: there is none without one,
    and with one the subject template is loaded from that file in the
    template directory. *)
Theorem empty_inline_is_absent (fs : string -> string -> option string)
    (cls : formatter_class) (filename dirname : option string) :
  getTemplate fs cls filename dirname (Some "") = getTemplate fs cls filename dirname None /\
  getTemplate fs cls filename dirname (Some "")
    = env_get_template fs (default bundled_templates_dir dirname)
        (default (cls_template_filename cls) filename) /\
  (forall msg, getTemplate fs cls filename dirname (Some "") <> Err (ConfigurationError msg)) /\
  (forall template_dir template_filename template subject_filename template_type ctx,
   MessageFormatterBase_init fs cls template_dir template_filename template
     subject_filename (Some "") template_type ctx
   = MessageFormatterBase_init fs cls template_dir template_filename template
     subject_filename None template_type ctx) /\
  (forall template_dir template_filename template subject_filename template_type ctx f,
   ~ nonempty subject_filename ->
   MessageFormatterBase_init fs cls template_dir template_filename template
     subject_filename (Some "") template_type ctx = Ok f ->
   subject_template f = None) /\
  (forall template_dir template_filename template (subject_file : string) template_type
     ctx f,
   subject_file <> "" ->
   MessageFormatterBase_init fs cls template_dir template_filename template
     (Some subject_file) (Some "") template_type ctx = Ok f ->
   exists st, subject_template f = Some st /\
     env_get_template fs (default bundled_templates_dir template_dir) subject_file = Ok st).
Proof.
  assert (Hload : getTemplate fs cls filename dirname (Some "")
    = env_get_template fs (default bundled_templates_dir dirname)
        (default (cls_template_filename cls) filename)) by reflexivity.
  split; [reflexivity|]. split; [done|]. split.
  { intros msg. rewrite Hload. apply env_get_template_not_config. }
  split; [|split].
  - intros. unfold MessageFormatterBase_init. simpl.
    by rewrite !orb_false_r.
  - intros template_dir template_filename template subject_filename template_type ctx f Hf.
    apply nonempty_dec_eq in Hf.
    unfold MessageFormatterBase_init. rewrite Hf. simpl.
    destruct (getTemplate fs cls template_filename template_dir template); simpl;
      [by intros [= <-] | discriminate].
  - intros template_dir template_filename template subject_file template_type ctx f Hf.
    unfold MessageFormatterBase_init.
    assert (truthy (Some subject_file) = true) as Ht.
    { apply truthy_true. by exists subject_file. }
    rewrite Ht. simpl.
    destruct (getTemplate fs cls template_filename template_dir template); simpl;
      [|discriminate].
    assert (getTemplate fs cls (Some subject_file) template_dir (Some "")
            = env_get_template fs (default bundled_templates_dir template_dir) subject_file)
      as Hs by reflexivity.
    rewrite Hs.
    destruct (env_get_template fs (default bundled_templates_dir template_dir) subject_file)
      as [st|e]; simpl; [|discriminate].
    intros [= <-]. by exists st.
Qed.

Lemma empty_inline_is_absent_witness :
  (~ nonempty None /\
   match MessageFormatterBase_init user_fs MessageFormatter_cls (Some "mytemplates")
           (Some "mail.txt") None None (Some "") None None with
   | Ok f => subject_template f = None
   | Err _ => True
   end) /\
  match MessageFormatterBase_init user_fs MessageFormatter_cls (Some "mytemplates")
          (Some "mail.txt") None (Some "subject.txt") (Some "") None None with
  | Ok f => exists st, subject_template f = Some st /\
              env_get_template user_fs "mytemplates" "subject.txt" = Ok st
  | Err _ => True
  end.
Proof.
  pose proof (empty_inline_is_absent user_fs MessageFormatter_cls None None)
    as (_ & _ & _ & _ & Hnone & Hfile).
  assert (~ nonempty (@None string)) as Hn by (intros [x [? _]]; discriminate).
  split; [split; [done|]|].
  - destruct (MessageFormatterBase_init user_fs MessageFormatter_cls (Some "mytemplates")
                (Some "mail.txt") None None (Some "") None None) as [f|e] eqn:E; [|exact I].
    exact (Hnone _ _ _ _ _ _ f Hn E).
  - destruct (MessageFormatterBase_init user_fs MessageFormatter_cls (Some "mytemplates")
                (Some "mail.txt") None (Some "subject.txt") (Some "") None None)
      as [f|e] eqn:E; [|exact I].
    exact (Hfile _ _ _ "subject.txt" _ _ f ltac:(discriminate) E).
Defined.

(** C10 fails as stated: with [subject=""] and a subject file, the
    subject template is loaded from the file. *)
Lemma empty_subject_with_file :
  match MessageFormatterBase_init user_fs MessageFormatter_cls (Some "mytemplates")
          (Some "mail.txt") None (Some "subject.txt") (Some "") None None with
  | Ok f => subject_template f <> None
  | Err _ => False
  end.
Proof. vm_compute. discriminate. Qed.

(* ------------------------------------------------------------------ *)
(** ** Undefined names *)

(** C1: a formatter built from the inline template "{{ summary }}"
    renders a context without [summary] to the empty body, without an
    error (a file template raises [UndefinedError] there). *)
Theorem inline_template_missing_key :
  (f ← MessageFormatter_init bundled_fs None None (Some "{{ summary }}") None None None
         None None;
   renderMessage show_obj f ∅)
  = Ok {| msg_body := ""; msg_type := "plain"; msg_subject := None |} /\
  (f ← MessageFormatter_init bundled_fs None None None None None None None None;
   renderMessage show_obj f ∅)
  = Err (UndefinedError "summary").
Proof. split; reflexivity. Qed.

(* ================================================================== *)
(** * Further properties of the module *)

(* ------------------------------------------------------------------ *)
(** ** Source-stamp and project texts *)

(** The source-stamp text of a concatenation is the concatenation of the
    texts: each stamp contributes its own line, whatever comes before. *)
Theorem source_stamp_text_app (l1 l2 : list sourcestamp) :
  get_message_source_stamp_text (l1 ++ l2)
  = get_message_source_stamp_text l1 ++ get_message_source_stamp_text l2.
Proof.
  unfold get_message_source_stamp_text. rewrite fold_left_app.
  rewrite !(fold_append_lines source_stamp_line). reflexivity.
Qed.

(** The source-stamp text is empty exactly when there are no stamps. *)
Theorem source_stamp_text_empty_iff (l : list sourcestamp) :
  get_message_source_stamp_text l = "" <-> l = [].
Proof.
  split; [|by intros ->].
  destruct l as [|ss l]; [done|].
  rewrite source_stamp_text_lines. unfold source_stamp_text_spec, stamp_line_spec.
  simpl. discriminate.
Qed.

(* ------------------------------------------------------------------ *)
(** ** Status texts *)

Lemma statusToString_in (z : Z) :
  In (statusToString z) ("Invalid status" :: Results).
Proof.
  unfold statusToString.
  destruct (Results !! Z.to_nat z) as [name|] eqn:E; [case_decide|]; try by left.
  right. apply list_elem_of_In. by eapply list_elem_of_lookup_2.
Qed.

(** Only FAILURE and SUCCESS look at the mode and the previous results:
    for any other code the text is the same for every mode and history. *)
Theorem detected_status_text_other_results (mode1 mode2 : list string) (results : Z)
    (prev1 prev2 : option Z) :
  results <> SUCCESS -> results <> FAILURE ->
  get_detected_status_text mode1 results prev1
  = get_detected_status_text mode2 results prev2.
Proof.
  intros Hs Hf. unfold get_detected_status_text.
  apply Z.eqb_neq in Hs, Hf. rewrite Hs, Hf. reflexivity.
Qed.

Lemma detected_status_text_other_results_witness :
  (EXCEPTION <> SUCCESS /\ EXCEPTION <> FAILURE) /\
  get_detected_status_text ["change"] EXCEPTION (Some SUCCESS)
  = get_detected_status_text ["problem"] EXCEPTION None.
Proof.
  assert (EXCEPTION <> SUCCESS) as H1 by discriminate.
  assert (EXCEPTION <> FAILURE) as H2 by discriminate.
  split; [done|]. by apply detected_status_text_other_results.
Defined.

(** Without the "change" and "problem" tags in the mode, the previous
    results never affect the text. *)
Theorem detected_status_text_no_tags (mode : list string) (results : Z)
    (prev1 prev2 : option Z) :
  "change" ∉ mode -> "problem" ∉ mode ->
  get_detected_status_text mode results prev1
  = get_detected_status_text mode results prev2.
Proof.
  intros Hc Hp. unfold get_detected_status_text.
  rewrite !mode_has_elem, !bool_decide_eq_false_2 by done. reflexivity.
Qed.

Lemma detected_status_text_no_tags_witness :
  (("change" ∉ ["failing"; "passing"]) /\ ("problem" ∉ ["failing"; "passing"])) /\
  get_detected_status_text ["failing"; "passing"] FAILURE (Some SUCCESS)
  = get_detected_status_text ["failing"; "passing"] FAILURE None.
Proof.
  assert ("change" ∉ ["failing"; "passing"]) as H1 by (intros Hin; apply list_elem_of_In in Hin; simpl in Hin; intuition discriminate).
  assert ("problem" ∉ ["failing"; "passing"]) as H2 by (intros Hin; apply list_elem_of_In in Hin; simpl in Hin; intuition discriminate).
  split; [done|]. by apply detected_status_text_no_tags.
Defined.

(** "new failure" is only reported for a FAILURE after a known previous
    result other than FAILURE, and "restored build" only for a SUCCESS
    after a known previous result other than SUCCESS; the generic text of
    the other codes never takes either form. *)
Theorem detected_status_text_transitions (mode : list string) (results : Z)
    (prev : option Z) :
  (get_detected_status_text mode results prev = "new failure" ->
   results = FAILURE /\ exists r, prev = Some r /\ r <> FAILURE) /\
  (get_detected_status_text mode results prev = "restored build" ->
   results = SUCCESS /\ exists r, prev = Some r /\ r <> SUCCESS).
Proof.
  assert (Hne : statusToString results ++ " build" <> "new failure" /\
                statusToString results ++ " build" <> "restored build").
  { pose proof (statusToString_in results) as Hin. unfold Results in Hin.
    repeat (destruct Hin as [<-|Hin]; [split; discriminate|]). done. }
  unfold get_detected_status_text.
  destruct (Z.eqb_spec results FAILURE) as [->|Hf].
  - split; [|repeat case_match; discriminate].
    intros H. split; [done|].
    destruct prev as [r|]; simpl in H.
    + exists r. split; [done|]. intros ->.
      rewrite !andb_false_r in H. discriminate.
    + rewrite !andb_false_r in H. discriminate.
  - destruct (Z.eqb_spec results WARNINGS); [split; discriminate|].
    destruct (Z.eqb_spec results SUCCESS) as [->|Hs].
    + split; [repeat case_match; discriminate|].
      intros H. split; [done|].
      destruct prev as [r|]; simpl in H.
      * exists r. split; [done|]. intros ->.
        rewrite !andb_false_r in H. discriminate.
      * rewrite !andb_false_r in H. discriminate.
    + destruct (Z.eqb_spec results EXCEPTION); [split; discriminate|].
      destruct Hne as [Hn1 Hn2]. split; intros H; exfalso; [apply Hn1 | apply Hn2]; exact H.
Qed.

Lemma detected_status_text_transitions_witness :
  get_detected_status_text ["change"] FAILURE (Some SUCCESS) = "new failure" /\
  FAILURE = FAILURE /\ exists r, Some SUCCESS = Some r /\ r <> FAILURE.
Proof.
  assert (get_detected_status_text ["change"] FAILURE (Some SUCCESS) = "new failure")
    as H by reflexivity.
  split; [done|].
  exact (proj1 (detected_status_text_transitions ["change"] FAILURE (Some SUCCESS)) H).
Defined.

(* ------------------------------------------------------------------ *)
(** ** The template store *)

Lemma compile_not_config (src : string) (u : undefined_kind) (msg : string) :
  compile src u <> Err (ConfigurationError msg).
Proof. unfold compile. case_match; discriminate. Qed.

(** With non-empty inline content, [getTemplate] never looks at the
    template files: its result is the same for any file system, and
    without a file name or directory it is the compiled content. *)
Theorem inline_template_no_files (fs1 fs2 : string -> string -> option string)
    (cls : formatter_class) (filename dirname content : option string) :
  nonempty content ->
  getTemplate fs1 cls filename dirname content = getTemplate fs2 cls filename dirname content /\
  (~ nonempty filename -> ~ nonempty dirname ->
   getTemplate fs1 cls filename dirname content
   = compile (default "" content) DefaultUndefined).
Proof.
  intros Hc. apply truthy_true in Hc. unfold getTemplate. rewrite Hc. split.
  - reflexivity.
  - intros Hf Hd. apply nonempty_dec_eq in Hf, Hd. by rewrite Hf, Hd.
Qed.

Lemma inline_template_no_files_witness :
  getTemplate bundled_fs MessageFormatter_cls None None (Some "{{ x }}")
  = getTemplate user_fs MessageFormatter_cls None None (Some "{{ x }}").
Proof.
  apply (proj1 (inline_template_no_files bundled_fs user_fs MessageFormatter_cls None None
                  (Some "{{ x }}") ltac:(eexists; split; [done|discriminate]))).
Defined.

(** [getTemplate] raises the configuration error only when non-empty
    inline content comes with a non-empty file name or directory. *)
Theorem getTemplate_config_error_only (fs : string -> string -> option string)
    (cls : formatter_class) (filename dirname content : option string) (msg : string) :
  getTemplate fs cls filename dirname content = Err (ConfigurationError msg) ->
  nonempty content /\ (nonempty filename \/ nonempty dirname).
Proof.
  unfold getTemplate. destruct (truthy content) eqn:Ec; simpl.
  - destruct (truthy filename) eqn:Ef; destruct (truthy dirname) eqn:Ed; simpl;
      intros H; rewrite <- !truthy_true;
      try (split; [done | by (left + right)]);
      exfalso; by eapply compile_not_config.
  - intros H. exfalso. by eapply env_get_template_not_config.
Qed.

Lemma getTemplate_config_error_only_witness :
  nonempty (Some "{{ x }}") /\ (nonempty (@None string) \/ nonempty (Some "mytemplates")).
Proof.
  apply (getTemplate_config_error_only user_fs MessageFormatter_cls None (Some "mytemplates")
           (Some "{{ x }}") "Only one of template or template path can be given").
  reflexivity.
Defined.

(* ------------------------------------------------------------------ *)
(** ** The constructor *)

(** The constructor raises the configuration error only when the body
    or the subject slot gets both non-empty inline content and a
    non-empty file name or the template directory. *)
Theorem init_config_error_only (fs : string -> string -> option string)
    (cls : formatter_class)
    (template_dir template_filename template subject_filename subject template_type
     : option string) (ctx : option context) (msg : string) :
  MessageFormatterBase_init fs cls template_dir template_filename template subject_filename
    subject template_type ctx = Err (ConfigurationError msg) ->
  (nonempty template /\ (nonempty template_filename \/ nonempty template_dir)) \/
  (nonempty subject /\ (nonempty subject_filename \/ nonempty template_dir)).
Proof.
  unfold MessageFormatterBase_init.
  destruct (getTemplate fs cls template_filename template_dir template) as [body|e] eqn:Eb;
    simpl.
  - destruct (truthy subject_filename || truthy subject); simpl; [|discriminate].
    destruct (getTemplate fs cls subject_filename template_dir subject) as [st|e] eqn:Es;
      simpl; [discriminate|].
    intros [= ->]. right. by eapply getTemplate_config_error_only.
  - intros [= ->]. left. by eapply getTemplate_config_error_only.
Qed.

Lemma init_config_error_only_witness :
  (nonempty (@None string) /\ (nonempty (Some "mail.txt") \/ nonempty (Some "mytemplates"))) \/
  (nonempty (Some "Build {{ buildername }}") /\
   (nonempty (@None string) \/ nonempty (Some "mytemplates"))).
Proof.
  apply (init_config_error_only user_fs MessageFormatter_cls (Some "mytemplates")
           (Some "mail.txt") None None (Some "Build {{ buildername }}") None None
           "Only one of template or template path can be given").
  reflexivity.
Defined.


